(** * Verification of the taskflow core: schema introspection, the
      generic repository, the schema views and their URL configuration,
      and the model hooks (src/backend/core/schema/introspection.py,
      src/backend/core/repositories/base.py, src/backend/core/views/dynamic.py,
      src/backend/config/urls.py and src/backend/apps/tasks/models.py). *)

From stdpp Require Import base gmap strings list.
From Stdlib Require Import ZArith Ascii String.
#[local] Set Warnings "-register-all".
Local Open Scope Z_scope.

(* ===================================================================== *)
(** ** Python values *)
(* ===================================================================== *)

Module Py.

(** The Python values a field default can hold.  [PCallable r] is a
    zero-argument callable whose call returns [r] (e.g. [timezone.now]);
    [PObj cls s] is any other object (a [date], [Decimal], [dict], [list],
    [UUID], ...) whose [str()] is [s].  Floats are kept as their repr. *)
Inductive pyval :=
| PNone
| PBool (b : bool)
| PInt (z : Z)
| PFloat (repr : string)
| PStr (s : string)
| PCallable (ret : pyval)
| PObj (cls : string) (str_form : string).

(** [callable(v)] *)
Definition callable (v : pyval) : bool :=
  match v with PCallable _ => true | _ => false end.

(** [isinstance(v, (str, int, float, bool, type(None)))] *)
Definition is_primitive (v : pyval) : bool :=
  match v with
  | PNone | PBool _ | PInt _ | PFloat _ | PStr _ => true
  | _ => false
  end.

(** [str(v)] for the values reaching the last branch of the default
    serialisation (objects); primitives are never passed to it there. *)
Definition py_str (v : pyval) : pyval :=
  match v with
  | PObj _ s => PStr s
  | other => other
  end.

(** Values stored in the emitted schema dictionaries: Python values, lists
    and dicts (insertion-ordered association lists). *)
Inductive oval :=
| OPy (v : pyval)
| OList (l : list oval)
| ODict (d : list (string * oval)).

Definition dict := list (string * oval).

(** [d[k] = v]: overwrite in place when the key exists, else append. *)
Fixpoint dict_set (k : string) (v : oval) (d : dict) : dict :=
  match d with
  | [] => [(k, v)]
  | (k', v') :: d' =>
      if String.eqb k k' then (k, v) :: d' else (k', v') :: dict_set k v d'
  end.

(** [d.update(kvs)] *)
Definition dict_update (kvs : dict) (d : dict) : dict :=
  fold_left (fun acc kv => dict_set kv.1 kv.2 acc) kvs d.

Fixpoint dict_get (k : string) (d : dict) : option oval :=
  match d with
  | [] => None
  | (k', v) :: d' => if String.eqb k k' then Some v else dict_get k d'
  end.

Definition has_key (k : string) (d : dict) : bool :=
  match dict_get k d with Some _ => true | None => false end.

(** ASCII case mapping used by [str.lower], [str.capitalize], [str.title]. *)
Definition is_upper (c : ascii) : bool :=
  let n := nat_of_ascii c in (65 <=? n)%nat && (n <=? 90)%nat.
Definition is_lower (c : ascii) : bool :=
  let n := nat_of_ascii c in (97 <=? n)%nat && (n <=? 122)%nat.
Definition to_lower (c : ascii) : ascii :=
  if is_upper c then ascii_of_nat (nat_of_ascii c + 32) else c.
Definition to_upper (c : ascii) : ascii :=
  if is_lower c then ascii_of_nat (nat_of_ascii c - 32) else c.

Fixpoint lower (s : string) : string :=
  match s with
  | EmptyString => EmptyString
  | String c s' => String (to_lower c) (lower s')
  end.

Definition capitalize (s : string) : string :=
  match s with
  | EmptyString => EmptyString
  | String c s' => String (to_upper c) (lower s')
  end.

(** [str.title]: a letter is upper-cased when the previous character is
    not a letter, lower-cased otherwise. *)
Fixpoint title_from (prev_cased : bool) (s : string) : string :=
  match s with
  | EmptyString => EmptyString
  | String c s' =>
      let cased := is_upper c || is_lower c in
      String (if prev_cased then to_lower c else to_upper c)
             (title_from cased s')
  end.
Definition title (s : string) : string := title_from false s.

(** [s.replace('_', ' ')] *)
Fixpoint replace_underscore (s : string) : string :=
  match s with
  | EmptyString => EmptyString
  | String c s' =>
      String (if Ascii.eqb c "_"%char then " "%char else c) (replace_underscore s')
  end.

End Py.
Import Py.

(* ===================================================================== *)
(** ** Django field objects, as the introspector sees them *)
(* ===================================================================== *)

Module Introspection.

(** The class of a field object returned by [_meta.get_fields()]: the
    Django field classes of the type mapping, the three reverse relation
    classes, and any other field class by its [__name__]. *)
Inductive field_class :=
| AutoField | BigAutoField | CharField | TextField | IntegerField
| BigIntegerField | PositiveIntegerField | SmallIntegerField | FloatField
| DecimalField | BooleanField | DateField | DateTimeField | TimeField
| EmailField | URLField | SlugField | UUIDField | FileField | ImageField
| JSONField | ForeignKey | OneToOneField | ManyToManyField
| ManyToOneRel | OneToOneRel | ManyToManyRel
| OtherClass (name : string).

Definition class_name (c : field_class) : string :=
  match c with
  | AutoField => "AutoField" | BigAutoField => "BigAutoField"
  | CharField => "CharField" | TextField => "TextField"
  | IntegerField => "IntegerField" | BigIntegerField => "BigIntegerField"
  | PositiveIntegerField => "PositiveIntegerField"
  | SmallIntegerField => "SmallIntegerField" | FloatField => "FloatField"
  | DecimalField => "DecimalField" | BooleanField => "BooleanField"
  | DateField => "DateField" | DateTimeField => "DateTimeField"
  | TimeField => "TimeField" | EmailField => "EmailField"
  | URLField => "URLField" | SlugField => "SlugField"
  | UUIDField => "UUIDField" | FileField => "FileField"
  | ImageField => "ImageField" | JSONField => "JSONField"
  | ForeignKey => "ForeignKey" | OneToOneField => "OneToOneField"
  | ManyToManyField => "ManyToManyField"
  | ManyToOneRel => "ManyToOneRel" | OneToOneRel => "OneToOneRel"
  | ManyToManyRel => "ManyToManyRel"
  | OtherClass n => n
  end.

(** [isinstance(field, (ForeignKey, OneToOneField, ManyToManyField))] *)
Definition is_relation_field (c : field_class) : bool :=
  match c with ForeignKey | OneToOneField | ManyToManyField => true | _ => false end.

(** [isinstance(field, ManyToManyField)] *)
Definition is_many_to_many (c : field_class) : bool :=
  match c with ManyToManyField => true | _ => false end.

(** Django's [ForeignObjectRel] classes (reverse relations). *)
Definition is_reverse_rel (c : field_class) : bool :=
  match c with ManyToOneRel | OneToOneRel | ManyToManyRel => true | _ => false end.

(** A field object.  An attribute the code probes with [hasattr] is an
    [option]: [None] when the object has no such attribute; the inner
    [option] of [max_length] and the numeric attributes is Python [None].
    [f_choices] is [Some []] when [field.choices] is [None] or empty (both
    falsy).  [f_default] is [None] for [NOT_PROVIDED]. *)
Record field := {
  f_class : field_class;
  f_name : string;
  f_null : bool;
  f_blank : bool;
  f_default : option pyval;
  f_verbose_name : option string;
  f_help_text : string;
  f_related_model : string;
  f_max_length : option (option Z);
  f_choices : option (list (pyval * pyval));
  f_max_digits : option (option Z);
  f_decimal_places : option (option Z);
  f_unique : option bool;
  f_auto_created_attr : bool;
  f_concrete_attr : bool
}.

(** [field.has_default()]: [self.default is not NOT_PROVIDED] *)
Definition has_default (f : field) : bool :=
  match f_default f with Some _ => true | None => false end.

(** [field.get_default()] on a field with a default: Django calls a
    callable default and returns its result. *)
Definition get_default (f : field) : pyval :=
  match f_default f with
  | Some (PCallable r) => r
  | Some v => v
  | None => PNone
  end.

(** [auto_created] and [concrete]: the reverse relation classes fix them
    as class attributes ([True] and [False]). *)
Definition auto_created (f : field) : bool :=
  if is_reverse_rel (f_class f) then true else f_auto_created_attr f.
Definition concrete (f : field) : bool :=
  if is_reverse_rel (f_class f) then false else f_concrete_attr f.

(** [get_field_type] *)
Definition get_field_type (f : field) : string :=
  match f_class f with
  | AutoField | BigAutoField => "auto"
  | CharField => "string"
  | TextField => "text"
  | IntegerField | BigIntegerField | PositiveIntegerField | SmallIntegerField => "integer"
  | FloatField => "float"
  | DecimalField => "decimal"
  | BooleanField => "boolean"
  | DateField => "date"
  | DateTimeField => "datetime"
  | TimeField => "time"
  | EmailField => "email"
  | URLField => "url"
  | SlugField => "slug"
  | UUIDField => "uuid"
  | FileField => "file"
  | ImageField => "image"
  | JSONField => "json"
  | ForeignKey => "foreignkey"
  | OneToOneField => "onetoone"
  | ManyToManyField => "manytomany"
  | c => lower (class_name c)
  end.

(** Python truthiness of an optional integer attribute. *)
Definition truthy_int (v : option Z) : bool :=
  match v with Some z => negb (z =? 0) | None => false end.

Definition opt_int (v : option Z) : oval :=
  match v with Some z => OPy (PInt z) | None => OPy PNone end.

(** The default-value serialisation (lines 100-110). *)
Definition serialize_default (f : field) : oval :=
  if has_default f then
    let default := get_default f in
    if callable default then OPy PNone
    else if is_primitive default then OPy default
    else OPy (py_str default)
  else OPy PNone.

(** [get_field_schema] *)
Definition get_field_schema (f : field) : dict :=
  let field_info : dict :=
    [("name", OPy (PStr (f_name f)));
     ("type", OPy (PStr (get_field_type f)));
     ("required", OPy (PBool (negb (f_null f) && negb (f_blank f) && negb (has_default f))));
     ("label", OPy (PStr (match f_verbose_name f with
                          | Some vn => capitalize vn
                          | None => title (replace_underscore (f_name f))
                          end)));
     ("help_text", match f_help_text f with
                   | EmptyString => OPy PNone
                   | h => OPy (PStr h)
                   end)] in
  if is_relation_field (f_class f) then
    dict_update [("related_model", OPy (PStr (f_related_model f)));
                 ("many", OPy (PBool (is_many_to_many (f_class f))))] field_info
  else
    let d1 := match f_max_length f with
              | Some ml => if truthy_int ml then dict_set "max_length" (opt_int ml) field_info
                           else field_info
              | None => field_info
              end in
    let d2 := match f_choices f with
              | Some ((_ :: _) as cs) =>
                  dict_set "choices"
                    (OList (map (fun ch => ODict [("value", OPy ch.1); ("label", OPy ch.2)]) cs)) d1
              | _ => d1
              end in
    let d3 := dict_set "default" (serialize_default f) d2 in
    let d4 := match f_max_digits f with
              | Some md => dict_set "max_digits" (opt_int md) d3
              | None => d3
              end in
    let d5 := match f_decimal_places f with
              | Some dp => dict_set "decimal_places" (opt_int dp) d4
              | None => d4
              end in
    match f_unique f with
    | Some u => dict_set "unique" (OPy (PBool u)) d5
    | None => d5
    end.

(** A model class: [_meta.get_fields()] in order, and its [_meta] data. *)
Record model_class := {
  m_name : string;
  m_app_label : string;
  m_db_table : string;
  m_verbose_name : string;
  m_verbose_name_plural : string;
  m_abstract : bool;
  m_fields : list field
}.

(** The loop of [get_model_schema] (lines 141-151): reverse relations
    ([auto_created and not concrete]) are skipped. *)
Fixpoint fields_schema (fs : list field) : list dict :=
  match fs with
  | [] => []
  | f :: fs' =>
      if auto_created f && negb (concrete f) then fields_schema fs'
      else get_field_schema f :: fields_schema fs'
  end.

(** [get_model_schema] *)
Definition get_model_schema (m : model_class) : dict :=
  [("model_name", OPy (PStr (m_name m)));
   ("app_label", OPy (PStr (m_app_label m)));
   ("table_name", OPy (PStr (m_db_table m)));
   ("verbose_name", OPy (PStr (m_verbose_name m)));
   ("verbose_name_plural", OPy (PStr (m_verbose_name_plural m)));
   ("fields", OList (map ODict (fields_schema (m_fields m))))].

(** The framework apps skipped by [get_all_models_schema]. *)
Definition builtin_apps : list string := ["auth"; "contenttypes"; "sessions"; "admin"].

Definition in_list (x : string) (l : list string) : bool := existsb (String.eqb x) l.

(** Python truthiness of the optional [app_label] argument. *)
Definition truthy_str (s : option string) : bool :=
  match s with Some (String _ _) => true | _ => false end.

(** [get_all_models_schema(app_label)] over the registry [apps.get_models()]. *)
Definition get_all_models_schema (app_label : option string) (registry : list model_class) : dict :=
  let models :=
    if truthy_str app_label then
      List.filter (fun m => String.eqb (m_app_label m) (default "" app_label)) registry
    else registry in
  fold_left
    (fun schemas m =>
       if m_abstract m then schemas
       else if in_list (m_app_label m) builtin_apps then schemas
       else dict_set (m_name m) (ODict (get_model_schema m)) schemas)
    models [].

(** [TeamMember.joined_at] (apps/tasks/models.py):
    [models.DateField(default=timezone.now, help_text="Date joined the team")];
    [now] is what [timezone.now()] returns when the schema is built. *)
Definition joined_at_field (now : pyval) : field := {|
  f_class := DateField; f_name := "joined_at"; f_null := false; f_blank := false;
  f_default := Some (PCallable now); f_verbose_name := Some "joined at";
  f_help_text := "Date joined the team"; f_related_model := "";
  f_max_length := Some None; f_choices := Some []; f_max_digits := None;
  f_decimal_places := None; f_unique := Some false;
  f_auto_created_attr := false; f_concrete_attr := true |}.

(** [validate_model_access] *)
Definition validate_model_access (model_name : string) (allowed_models : option (list string)) : bool :=
  match allowed_models with
  | None => true
  | Some l => in_list model_name l
  end.

End Introspection.

(* ===================================================================== *)
(** ** Django's [Paginator], as used by [get_all] *)
(* ===================================================================== *)

Module Pagination.

Inductive page_error := PageNotAnInteger | EmptyPage.

Section Paginator.
Context {row : Type}.

(** [Paginator(object_list, per_page, orphans=0, allow_empty_first_page=True)] *)
Record paginator := {
  object_list : list row;
  per_page : Z;
  orphans : Z;
  allow_empty_first_page : bool
}.

(** [ceil(a / b)] for [b > 0].  Django divides as floats; the two agree
    for every count below 2^53. *)
Definition ceil_div (a b : Z) : Z := - ((- a) / b).

(** [Paginator.count] *)
Definition count (p : paginator) : Z := Z.of_nat (List.length (object_list p)).

(** [Paginator.num_pages] *)
Definition num_pages (p : paginator) : Z :=
  if (count p =? 0) && negb (allow_empty_first_page p) then 0
  else
    let hits := Z.max 1 (count p - orphans p) in
    ceil_div hits (per_page p).

(** [Paginator.validate_number] on a Python [int]. *)
Definition validate_number (p : paginator) (number : Z) : page_error + Z :=
  if number <? 1 then inl EmptyPage
  else if number >? num_pages p then inl EmptyPage
  else inr number.

(** [object_list[bottom:top]] for [0 <= bottom]. *)
Definition slice (l : list row) (bottom top : Z) : list row :=
  firstn (Z.to_nat (top - bottom)) (skipn (Z.to_nat bottom) l).

(** [Paginator.page]: the rows of the page and its number. *)
Definition page (p : paginator) (number : Z) : page_error + (list row * Z) :=
  match validate_number p number with
  | inl e => inl e
  | inr number =>
      let bottom := (number - 1) * per_page p in
      let top := bottom + per_page p in
      let top := if top + orphans p >=? count p then count p else top in
      inr (slice (object_list p) bottom top, number)
  end.

(** [Paginator.get_page] *)
Definition get_page (p : paginator) (number : Z) : page_error + (list row * Z) :=
  match validate_number p number with
  | inr n => page p n
  | inl PageNotAnInteger => page p 1
  | inl EmptyPage => page p (num_pages p)
  end.

End Paginator.

Arguments paginator : clear implicits.

End Pagination.

(* ===================================================================== *)
(** ** The generic repository ([create_repository]) *)
(* ===================================================================== *)

Module Repository.
Import Pagination.

(** A model instance is its attribute dictionary; the primary key is its
    ["id"] attribute.  The table maps primary keys to stored rows. *)
Abbreviation attrs := (gmap string pyval).
Abbreviation table := (gmap Z (gmap string pyval)).

(** The exceptions the repository functions let through:
    [ValidationError] with its message dictionary; [TypeError] (an
    unexpected keyword of [model_class( **data)], or an assignment to a
    many-to-many attribute); [ValueError] (a non-instance assigned to a
    foreign key); [FieldError] (an unknown field in [filter] or
    [order_by]); the [RelatedObjectDoesNotExist] of a forward relation
    descriptor and a model's [DoesNotExist]; and the paginator's errors. *)
Inductive exn :=
| ValidationError (message_dict : gmap string (list string))
| TypeError
| ValueError
| FieldError
| RelatedObjectDoesNotExist (descriptor : string)
| DoesNotExist (model : string)
| PaginatorError (e : page_error).

(** State and exception monad over the table; on an exception the table
    is the one at the point of the raise. *)
Definition M (A : Type) : Type := table -> (exn + A) * table.

Definition ret {A} (a : A) : M A := fun t => (inr a, t).
Definition bind {A B} (m : M A) (k : A -> M B) : M B :=
  fun t => match m t with
           | (inl e, t') => (inl e, t')
           | (inr a, t') => k a t'
           end.
Definition raise {A} (e : exn) : M A := fun t => (inl e, t).
Definition get_table : M table := fun t => (inr t, t).
Definition put_table (t : table) : M unit := fun _ => (inr tt, t).

Notation "x <- m ;; k" := (bind m (fun x => k)) (at level 100, m at next level, right associativity).

(** [PAGE_RESULT] of [get_all] *)
Record page_result := {
  data : list attrs;
  page_no : Z;
  total_pages : Z;
  total_count : Z
}.

(** The primary key assigned on insert: one past the largest in use. *)
Definition fresh_id (t : table) : Z := 1 + map_fold (fun k _ acc => Z.max k acc) 0 t.

Section Repo.

(** The model class the repository is created for:
    - [construct data]: [model_class( **data)] (a [TypeError] for an
      unexpected keyword, a [ValueError] for a non-instance given to a
      foreign key), the new instance without primary key;
    - [setattr_raises key value]: the exception [setattr(instance, key,
      value)] raises, if any (the relation descriptors' [ValueError] and
      [TypeError]);
    - [clean_raises t inst]: the exception other than [ValidationError]
      that [instance.clean()] raises, if any; [full_clean()] does not catch
      it, whatever [clean_fields()] found before;
    - [full_clean t inst]: otherwise, the error dictionary [full_clean]
      collects (field name, or ["__all__"], to messages) from
      [clean_fields()], [clean()], [validate_unique()] and
      [validate_constraints()] against table [t]; it raises
      [ValidationError] when the dictionary is not empty;
    - [default_order]: [objects.all()] in the model's default ordering;
    - [qs_filter], [qs_order]: [queryset.filter( **filters)] and
      [queryset.order_by( *order_by)], which raise ([FieldError] for an
      unknown field name) or return the new queryset. *)
Context (construct : list (string * pyval) -> exn + attrs).
Context (setattr_raises : string -> pyval -> option exn).
Context (clean_raises : table -> attrs -> option exn).
Context (full_clean : table -> attrs -> gmap string (list string)).
Context (default_order : list (Z * attrs) -> list (Z * attrs)).
Context (qs_filter : list (string * pyval) -> list (Z * attrs) -> exn + list (Z * attrs)).
Context (qs_order : list string -> list (Z * attrs) -> exn + list (Z * attrs)).

(** [instance.full_clean()] *)
Definition run_full_clean (inst : attrs) : M unit :=
  t <- get_table ;;
  match clean_raises t inst with
  | Some e => raise e
  | None =>
      let errors := full_clean t inst in
      if decide (errors = ∅) then ret tt else raise (ValidationError errors)
  end.

(** [instance.save()]: UPDATE or INSERT at the instance's primary key, or
    INSERT with a fresh primary key when it has none. *)
Definition save (inst : attrs) : M attrs :=
  t <- get_table ;;
  match inst !! "id" with
  | Some (PInt pk) => _ <- put_table (<[pk := inst]> t) ;; ret inst
  | _ =>
      let pk := fresh_id t in
      let inst' := <[ "id" := PInt pk ]> inst in
      _ <- put_table (<[pk := inst']> t) ;; ret inst'
  end.

(** [model_class.objects.all()] followed by the optional filter and order. *)
Definition queryset (filters : list (string * pyval)) (order_by : list string) (t : table)
  : exn + list (Z * attrs) :=
  let qs := default_order (map_to_list t) in
  match (if bool_decide (filters = []) then inr qs else qs_filter filters qs) with
  | inl e => inl e
  | inr qs => if bool_decide (order_by = []) then inr qs else qs_order order_by qs
  end.

(** [.values()]: the row as a dictionary, with its primary key. *)
Definition values (r : Z * attrs) : attrs := <[ "id" := PInt r.1 ]> r.2.

(** [get_all] *)
Definition get_all (filters : list (string * pyval)) (order_by : list string)
    (page_n page_size : Z) : M page_result :=
  t <- get_table ;;
  match queryset filters order_by t with
  | inl e => raise e
  | inr qs =>
      let p := {| object_list := qs; per_page := page_size;
                  orphans := 0; allow_empty_first_page := true |} in
      match get_page p page_n with
      | inl e => raise (PaginatorError e)
      | inr (rows, _) =>
          ret {| data := map values rows; page_no := page_n;
                 total_pages := num_pages p; total_count := count p |}
      end
  end.

(** [get_by_id]: [DoesNotExist] is caught and turned into [None]. *)
Definition get_by_id (id : Z) : M (option attrs) :=
  t <- get_table ;; ret (t !! id).

(** [create] *)
Definition create (data : list (string * pyval)) : M attrs :=
  match construct data with
  | inl e => raise e
  | inr instance =>
      _ <- run_full_clean instance ;;
      save instance
  end.

(** [setattr(instance, key, value)] for every item of [data], in order;
    the first assignment that raises stops the loop. *)
Fixpoint set_attrs (data : list (string * pyval)) (instance : attrs) : exn + attrs :=
  match data with
  | [] => inr instance
  | (key, value) :: data' =>
      match setattr_raises key value with
      | Some e => inl e
      | None => set_attrs data' (<[key := value]> instance)
      end
  end.

(** [update] *)
Definition update (id : Z) (data : list (string * pyval)) : M (option attrs) :=
  o <- get_by_id id ;;
  match o with
  | None => ret None
  | Some instance =>
      match set_attrs data instance with
      | inl e => raise e
      | inr instance =>
          _ <- run_full_clean instance ;;
          inst <- save instance ;;
          ret (Some inst)
      end
  end.

(** [delete] *)
Definition delete (id : Z) : M bool :=
  o <- get_by_id id ;;
  match o with
  | None => ret false
  | Some _ =>
      t <- get_table ;;
      _ <- put_table (base.delete id t) ;;
      ret true
  end.

End Repo.

End Repository.

(* ===================================================================== *)
(** ** Model lookup, the schema views and the URL configuration *)
(* ===================================================================== *)

Module Views.
Import Introspection.

(** [get_model_by_name(model_name, app_label)].  [apps_get_model] is
    Django's [apps.get_model(app_label, model_name)], [None] for its
    [LookupError]; [registry] is [apps.get_models()]. *)
Definition get_model_by_name (apps_get_model : string -> string -> option model_class)
    (registry : list model_class) (model_name : string) (app_label : option string)
    : option model_class :=
  if truthy_str app_label then apps_get_model (default "" app_label) model_name
  else find (fun m => String.eqb (m_name m) model_name) registry.

(** [ALLOWED_MODELS] of core/views/dynamic.py *)
Definition ALLOWED_MODELS : list string := ["Task"; "Project"; "TeamMember"; "Tag"].

(** A [JsonResponse]: status code and JSON body. *)
Record response := { status : Z; body : oval }.

(** [@require_http_methods(["GET"])]: any other method gets 405. *)
Definition require_get (method : string) (handler : response) : response :=
  if String.eqb method "GET" then handler
  else {| status := 405; body := OPy (PStr "") |}.

Definition error_body (msg : string) : oval := ODict [("error", OPy (PStr msg))].

(** [get_schema_view] *)
Definition get_schema_view (apps_get_model : string -> string -> option model_class)
    (registry : list model_class) (method model_name : string) : response :=
  require_get method
    (if negb (validate_model_access model_name (Some ALLOWED_MODELS)) then
       {| status := 403;
          body := error_body ("Model " ++ model_name ++ " is not accessible") |}
     else
       match get_model_by_name apps_get_model registry model_name None with
       | None => {| status := 404; body := error_body ("Model " ++ model_name ++ " not found") |}
       | Some model_class => {| status := 200; body := ODict (get_model_schema model_class) |}
       end).

(** [get_all_schemas_view] *)
Definition get_all_schemas_view (registry : list model_class) (method : string) : response :=
  require_get method
    (let all_schemas := get_all_models_schema None registry in
     let filtered_schemas :=
       List.filter (fun kv => in_list kv.1 ALLOWED_MODELS) all_schemas in
     {| status := 200; body := ODict filtered_schemas |}).

(** [health_check] *)
Definition health_check (method : string) : response :=
  require_get method
    {| status := 200;
       body := ODict [("status", OPy (PStr "ok"));
                      ("message", OPy (PStr "TaskFlow API is running"))] |}.

(** The views of config/urls.py. *)
Inductive view := AdminSite | HealthCheck | GetSchema | GetAllSchemas.

(** A [path()] route: literal parts and [<str:name>] converters, whose
    regular expression is [[^/]+]. *)
Inductive token := Lit (s : string) | StrConv (name : string).

Record url_pattern := { route : list token; is_include : bool; target : view }.

(** [urlpatterns], in order. *)
Definition urlpatterns : list url_pattern :=
  [ {| route := [Lit "admin/"]; is_include := true; target := AdminSite |};
    {| route := [Lit "api/health/"]; is_include := false; target := HealthCheck |};
    {| route := [Lit "api/schema/"; StrConv "model_name"; Lit "/"];
       is_include := false; target := GetSchema |};
    {| route := [Lit "api/schema/all/"]; is_include := false; target := GetAllSchemas |} ].

Fixpoint strip_prefix (pre s : string) : option string :=
  match pre, s with
  | EmptyString, _ => Some s
  | String c pre', String d s' => if Ascii.eqb c d then strip_prefix pre' s' else None
  | String _ _, EmptyString => None
  end.

(** The longest run of characters other than ['/'] at the start of [s]. *)
Fixpoint segment (s : string) : string :=
  match s with
  | String c s' => if Ascii.eqb c "/"%char then EmptyString else String c (segment s')
  | EmptyString => EmptyString
  end.

(** Match [toks] against the start of [s], as the route's regular
    expression does: a converter takes the longest non-empty run of
    non-['/'] characters first and backtracks to shorter ones.  Returns
    the captured keyword arguments and the rest of the path. *)
Fixpoint match_tokens (toks : list token) (s : string) : option (list (string * string) * string) :=
  match toks with
  | [] => Some ([], s)
  | Lit l :: toks' =>
      match strip_prefix l s with
      | Some rest => match_tokens toks' rest
      | None => None
      end
  | StrConv name :: toks' =>
      let seg := segment s in
      (fix try (n : nat) : option (list (string * string) * string) :=
         match n with
         | O => None
         | S n' =>
             let captured := substring 0 n seg in
             match match_tokens toks' (substring n (String.length s - n) s) with
             | Some (kw, rest) => Some ((name, captured) :: kw, rest)
             | None => try n'
             end
         end) (String.length seg)
  end.

(** [RoutePattern.match]: an endpoint must consume the whole path, an
    [include()] only a prefix. *)
Definition match_pattern (p : url_pattern) (path : string) : option (list (string * string)) :=
  match match_tokens (route p) path with
  | Some (kw, rest) =>
      if is_include p then Some kw
      else match rest with EmptyString => Some kw | _ => None end
  | None => None
  end.

(** [resolve(path)] (path without its leading ['/']): the first pattern
    that matches. *)
Fixpoint resolve_in (ps : list url_pattern) (path : string) : option (view * list (string * string)) :=
  match ps with
  | [] => None
  | p :: ps' =>
      match match_pattern p path with
      | Some kw => Some (target p, kw)
      | None => resolve_in ps' path
      end
  end.

Definition resolve (path : string) : option (view * list (string * string)) :=
  resolve_in urlpatterns path.

End Views.

(* ===================================================================== *)
(** ** Model hooks of apps/tasks/models.py *)
(* ===================================================================== *)

Module Models.
Import Repository.





(** [Project.clean]: dates as their proleptic ordinals ([date.toordinal()]),
    [None] for a null date; the result is the raised error dictionary. *)
Definition project_clean (start_date deadline : option Z) : option (gmap string (list string)) :=
  match start_date, deadline with
  | Some start, Some dl =>
      if dl <? start then Some {[ "deadline" := ["Deadline must be after start date"] ]}
      else None
  | _, _ => None
  end.

(** [Task.clean]: [today] is [timezone.now().date()]; [project_id] is the
    task's [project_id]; [project_status] maps project ids to their
    [status].  What it raises: a [ValidationError], or the exception of the
    forward relation descriptor [self.project] when the task has no project
    ([RelatedObjectDoesNotExist]) or one missing from the table
    ([Project.DoesNotExist]). *)
Definition task_clean (today : Z) (due_date project_id : option Z)
    (project_status : gmap Z string) : option exn :=
  let due_check :=
    match due_date with
    | Some d => if d <? today then
                  Some (ValidationError {[ "due_date" := ["Due date cannot be in the past"] ]})
                else None
    | None => None
    end in
  match due_check with
  | Some e => Some e
  | None =>
      match project_id with
      | None => Some (RelatedObjectDoesNotExist "Task.project")
      | Some pid =>
          match project_status !! pid with
          | None => Some (DoesNotExist "Project")
          | Some st =>
              if String.eqb st "archived" then
                Some (ValidationError {[ "project" := ["Cannot create tasks for archived projects"] ]})
              else None
          end
      end
  end.

(** A date attribute as its ordinal, [None] for a null date. *)
Definition date_attr (inst : attrs) (k : string) : option Z :=
  match inst !! k with Some (PInt d) => Some d | _ => None end.

(** The exception other than [ValidationError] that [Task.clean] raises
    on an instance; its [ValidationError]s are part of the error
    dictionary [full_clean] collects. *)
Definition task_clean_raises (today : Z) (project_status : gmap Z string)
    (_ : table) (inst : attrs) : option exn :=
  match task_clean today (date_attr inst "due_date") (date_attr inst "project_id") project_status with
  | Some (ValidationError _) => None
  | other => other
  end.

(** [setattr] on a [Task]: the forward descriptors of [project] and
    [assigned_to] take [None] or an instance of the related model and
    raise [ValueError] otherwise; the many-to-many [tags] refuses any
    direct assignment with [TypeError]. *)
Definition task_setattr_raises (key : string) (value : pyval) : option exn :=
  let fk_check (related : string) :=
    match value with
    | PNone => None
    | PObj cls _ => if String.eqb cls related then None else Some ValueError
    | _ => Some ValueError
    end in
  if String.eqb key "tags" then Some TypeError
  else if String.eqb key "project" then fk_check "Project"
  else if String.eqb key "assigned_to" then fk_check "TeamMember"
  else None.

End Models.


(* ===================================================================== *)
(** ** Sample inputs from apps/tasks/models.py *)
(* ===================================================================== *)

Module Samples.
Import Introspection Repository.

(** [Task.tags = models.ManyToManyField(Tag, blank=True, ...)] *)
Definition task_tags_field : field := {|
  f_class := ManyToManyField; f_name := "tags"; f_null := false; f_blank := true;
  f_default := None; f_verbose_name := Some "tags";
  f_help_text := "Tags for categorization"; f_related_model := "Tag";
  f_max_length := Some None; f_choices := Some []; f_max_digits := None;
  f_decimal_places := None; f_unique := Some false;
  f_auto_created_attr := false; f_concrete_attr := true |}.

(** [Task.title = models.CharField(max_length=200, ...)] *)
Definition task_title_field : field := {|
  f_class := CharField; f_name := "title"; f_null := false; f_blank := false;
  f_default := None; f_verbose_name := Some "title";
  f_help_text := "Brief task description"; f_related_model := "";
  f_max_length := Some (Some 200); f_choices := Some []; f_max_digits := None;
  f_decimal_places := None; f_unique := Some false;
  f_auto_created_attr := false; f_concrete_attr := true |}.

(** The [Task] model (two of its fields) and Django's [auth.User]. *)
Definition task_model : model_class := {|
  m_name := "Task"; m_app_label := "tasks"; m_db_table := "tasks_task";
  m_verbose_name := "Task"; m_verbose_name_plural := "Tasks"; m_abstract := false;
  m_fields := [task_title_field; task_tags_field] |}.

Definition auth_user_model : model_class := {|
  m_name := "User"; m_app_label := "auth"; m_db_table := "auth_user";
  m_verbose_name := "user"; m_verbose_name_plural := "users"; m_abstract := false;
  m_fields := [] |}.

(** A table of three tasks. *)
Definition three_tasks : table :=
  <[1 := {[ "title" := PStr "a" ]}]> (<[2 := {[ "title" := PStr "b" ]}]>
    (<[3 := {[ "title" := PStr "c" ]}]> ∅)).

(** [Task.status = models.CharField(max_length=20, choices=STATUS_CHOICES,
    default='todo', help_text="Current task status")] *)
Definition task_status_field : field := {|
  f_class := CharField; f_name := "status"; f_null := false; f_blank := false;
  f_default := Some (PStr "todo"); f_verbose_name := Some "status";
  f_help_text := "Current task status"; f_related_model := "";
  f_max_length := Some (Some 20);
  f_choices := Some [(PStr "todo", PStr "To Do"); (PStr "in_progress", PStr "In Progress");
                     (PStr "review", PStr "In Review"); (PStr "done", PStr "Done");
                     (PStr "blocked", PStr "Blocked")];
  f_max_digits := None; f_decimal_places := None; f_unique := Some false;
  f_auto_created_attr := false; f_concrete_attr := true |}.


End Samples.

(* ===================================================================== *)
(** ** Properties of the schema introspector *)
(* ===================================================================== *)

Module IntrospectionFacts.
Import Introspection.

(** Case split of [get_field_schema] on every branch the code takes. *)
Ltac schema_cases f :=
  unfold get_field_schema, serialize_default;
  destruct (is_relation_field (f_class f)) eqn:Hrel;
  [ cbn
  | destruct (f_max_length f) as [ml|];
    try destruct (truthy_int ml) eqn:Hml;
    destruct (f_choices f) as [[|ch chs]|];
    destruct (has_default f) eqn:Hdef;
    destruct (callable (get_default f));
    destruct (is_primitive (get_default f));
    destruct (f_max_digits f); destruct (f_decimal_places f); destruct (f_unique f);
    cbn ].

Lemma fields_schema_in (fs : list field) (e : dict) :
  In e (fields_schema fs) ->
  exists f, In f fs /\ auto_created f && negb (concrete f) = false /\ e = get_field_schema f.
Proof.
  induction fs as [|f fs IH]; cbn; [tauto|].
  destruct (auto_created f && negb (concrete f)) eqn:Hskip.
  - intros H. destruct (IH H) as (g & Hg & Hs & ->). eauto.
  - intros [<- | H]; [eauto|]. destruct (IH H) as (g & Hg & Hs & ->). eauto.
Qed.

Lemma fields_schema_complete (fs : list field) (f : field) :
  In f fs -> auto_created f && negb (concrete f) = false ->
  In (get_field_schema f) (fields_schema fs).
Proof.
  induction fs as [|g fs IH]; cbn; [tauto|].
  intros [-> | H] Hf.
  - rewrite Hf. now left.
  - destruct (auto_created g && negb (concrete g)); [|right]; auto.
Qed.

Lemma get_model_schema_fields (m : model_class) :
  dict_get "fields" (get_model_schema m) = Some (OList (map ODict (fields_schema (m_fields m)))).
Proof. reflexivity. Qed.

Lemma dict_get_set (k k' : string) (v : oval) (d : dict) :
  dict_get k (dict_set k' v d) = if String.eqb k k' then Some v else dict_get k d.
Proof.
  induction d as [|[k0 v0] d IH]; cbn.
  - destruct (String.eqb k k'); reflexivity.
  - destruct (String.eqb k' k0) eqn:E1; cbn.
    + apply String.eqb_eq in E1; subst k0. destruct (String.eqb k k'); reflexivity.
    + rewrite IH. destruct (String.eqb k k') eqn:E2; [|reflexivity].
      apply String.eqb_eq in E2; subst k'. rewrite E1. reflexivity.
Qed.

(** C1: [required] is [not null and not blank and not has_default()],
    for every field and for every entry of every emitted document. *)
Theorem required_flag (f : field) (m : model_class) :
  dict_get "required" (get_field_schema f) =
    Some (OPy (PBool (negb (f_null f) && negb (f_blank f) && negb (has_default f)))) /\
  (forall e, In e (fields_schema (m_fields m)) ->
     exists g, In g (m_fields m) /\
       dict_get "required" e =
         Some (OPy (PBool (negb (f_null g) && negb (f_blank g) && negb (has_default g))))).
Proof.
  assert (Hreq : forall g, dict_get "required" (get_field_schema g) =
     Some (OPy (PBool (negb (f_null g) && negb (f_blank g) && negb (has_default g))))).
  { intros g. schema_cases g; reflexivity. }
  split; [apply Hreq|].
  intros e He. destruct (fields_schema_in _ _ He) as (g & Hg & _ & ->). eauto.
Qed.

(** C3: the default of [TeamMember.joined_at], declared as the
    zero-argument callable [timezone.now], is reported as the string form of
    the date-time the call returned, not as [None]. *)
Theorem joined_at_default_reported_as_string :
  dict_get "default"
    (get_field_schema (joined_at_field (PObj "datetime" "2026-10-15 09:30:00+00:00"))) =
    Some (OPy (PStr "2026-10-15 09:30:00+00:00")) /\
  dict_get "default"
    (get_field_schema (joined_at_field (PObj "datetime" "2026-10-15 09:30:00+00:00"))) <>
    Some (OPy PNone).
Proof. split; [reflexivity | discriminate]. Qed.

Lemma all_models_fold (registry models : list model_class) (acc : dict) :
  (forall m, In m models -> In m registry) ->
  (forall n v, dict_get n acc = Some v ->
     exists m, In m registry /\ m_abstract m = false /\
       in_list (m_app_label m) builtin_apps = false /\ m_name m = n /\
       v = ODict (get_model_schema m)) ->
  forall n v,
    dict_get n (fold_left
      (fun schemas m =>
         if m_abstract m then schemas
         else if in_list (m_app_label m) builtin_apps then schemas
         else dict_set (m_name m) (ODict (get_model_schema m)) schemas)
      models acc) = Some v ->
    exists m, In m registry /\ m_abstract m = false /\
      in_list (m_app_label m) builtin_apps = false /\ m_name m = n /\
      v = ODict (get_model_schema m).
Proof.
  revert acc. induction models as [|m models IH]; intros acc Hsub Hacc; cbn [fold_left]; [exact Hacc|].
  apply IH; [intros; apply Hsub; cbn; auto|].
  destruct (m_abstract m) eqn:Habs; [exact Hacc|].
  destruct (in_list (m_app_label m) builtin_apps) eqn:Hbi; [exact Hacc|].
  intros n v. rewrite dict_get_set. destruct (String.eqb n (m_name m)) eqn:E.
  - intros Hv. injection Hv as <-. apply String.eqb_eq in E. subst n.
    exists m. repeat split; auto. apply Hsub. now left.
  - apply Hacc.
Qed.

(** C6: every schema in the result of [get_all_models_schema] is the schema
    of a registered model that is not abstract and whose app is not one of
    [auth], [contenttypes], [sessions], [admin], whatever [app_label]. *)
Theorem all_models_schema_excludes_builtin
    (app_label : option string) (registry : list model_class) (name : string) (v : oval)
    (Hget : dict_get name (get_all_models_schema app_label registry) = Some v) :
  exists m, In m registry /\ m_abstract m = false /\
    ~ In (m_app_label m) builtin_apps /\ m_name m = name /\
    v = ODict (get_model_schema m).
Proof.
  unfold get_all_models_schema in Hget.
  apply all_models_fold with (registry := registry) in Hget.
  - destruct Hget as (m & Hm & Habs & Hbi & Hn & ->). exists m. repeat split; auto.
    intros Hin. unfold in_list in Hbi.
    assert (existsb (String.eqb (m_app_label m)) builtin_apps = true) as Hc.
    { apply existsb_exists. exists (m_app_label m). split; [exact Hin | apply String.eqb_refl]. }
    congruence.
  - intros m Hm. destruct (truthy_str app_label); [|exact Hm].
    apply filter_In in Hm. tauto.
  - intros n w Hw. discriminate.
Qed.

(** C7: a relationship field's schema carries [related_model] and [many],
    [many] is true exactly for [ManyToManyField], and it has no
    [max_length], [choices], [max_digits] or [decimal_places]. *)
Theorem relation_field_schema (f : field) (Hrel : is_relation_field (f_class f) = true) :
  dict_get "related_model" (get_field_schema f) = Some (OPy (PStr (f_related_model f))) /\
  dict_get "many" (get_field_schema f) = Some (OPy (PBool (is_many_to_many (f_class f)))) /\
  (is_many_to_many (f_class f) = true <-> f_class f = ManyToManyField) /\
  has_key "max_length" (get_field_schema f) = false /\
  has_key "choices" (get_field_schema f) = false /\
  has_key "max_digits" (get_field_schema f) = false /\
  has_key "decimal_places" (get_field_schema f) = false.
Proof.
  unfold get_field_schema. rewrite Hrel. cbn.
  repeat split; try reflexivity.
  - destruct (f_class f); cbn; congruence.
  - intros ->. reflexivity.
Qed.

(** C8: the field list of a model schema has an entry for every concrete
    field of [_meta.get_fields()], and every entry is the schema of a field
    that is not a reverse relation and not [auto_created and not concrete]. *)
Theorem model_schema_field_enumeration (m : model_class) :
  dict_get "fields" (get_model_schema m) = Some (OList (map ODict (fields_schema (m_fields m)))) /\
  (forall f, In f (m_fields m) -> concrete f = true ->
     In (get_field_schema f) (fields_schema (m_fields m))) /\
  (forall e, In e (fields_schema (m_fields m)) ->
     exists f, In f (m_fields m) /\ is_reverse_rel (f_class f) = false /\
       (auto_created f = false \/ concrete f = true) /\ e = get_field_schema f).
Proof.
  split; [reflexivity|]. split.
  - intros f Hf Hc. apply fields_schema_complete; [exact Hf|].
    rewrite Hc. apply andb_false_r.
  - intros e He. destruct (fields_schema_in _ _ He) as (f & Hf & Hs & ->).
    exists f. split; [exact Hf|]. split; [|split; [|reflexivity]].
    + unfold auto_created, concrete in Hs.
      destruct (is_reverse_rel (f_class f)); [discriminate | reflexivity].
    + destruct (auto_created f), (concrete f); cbn in Hs; auto; discriminate.
Qed.

(** C9: with no allow-list every name is allowed; otherwise a name is
    allowed exactly when it is (string-equal to) an element of the list. *)
Theorem model_access_policy :
  (forall name, validate_model_access name None = true) /\
  (forall name l, validate_model_access name (Some l) = true <-> In name l).
Proof.
  split; [reflexivity|]. intros name l. cbn. unfold in_list.
  rewrite existsb_exists. split.
  - intros (x & Hx & E). apply String.eqb_eq in E. now subst.
  - intros H. exists name. split; [exact H | apply String.eqb_refl].
Qed.

(** C10: the keys of a field schema. *)
Theorem field_schema_keys (f : field) :
  has_key "name" (get_field_schema f) = true /\
  has_key "type" (get_field_schema f) = true /\
  has_key "required" (get_field_schema f) = true /\
  has_key "label" (get_field_schema f) = true /\
  has_key "help_text" (get_field_schema f) = true /\
  (is_relation_field (f_class f) = false ->
     has_key "default" (get_field_schema f) = true /\
     (f_default f = None -> dict_get "default" (get_field_schema f) = Some (OPy PNone))) /\
  (is_relation_field (f_class f) = true ->
     has_key "default" (get_field_schema f) = false /\
     has_key "max_length" (get_field_schema f) = false /\
     has_key "choices" (get_field_schema f) = false /\
     has_key "unique" (get_field_schema f) = false /\
     has_key "max_digits" (get_field_schema f) = false /\
     has_key "decimal_places" (get_field_schema f) = false) /\
  (has_key "max_length" (get_field_schema f) = true ->
     exists z, f_max_length f = Some (Some z) /\ z <> 0).
Proof.
  unfold has_key.
  schema_cases f;
    repeat split; try reflexivity; try discriminate;
    try (intros Hd; unfold has_default in Hdef; rewrite Hd in Hdef; discriminate).
  all: try (intros _; destruct ml as [z|]; cbn in Hml; [|discriminate];
            exists z; split; [reflexivity|]; intros ->; discriminate).
Qed.

End IntrospectionFacts.

(* ===================================================================== *)
(** ** Properties of the paginator *)
(* ===================================================================== *)

Module PaginationFacts.
Import Pagination.

Section Rows.
Context {row : Type}.

(** The paginator [get_all] builds: no orphans, empty first page allowed. *)
Definition mkp (l : list row) (n : Z) : paginator row :=
  {| object_list := l; per_page := n; orphans := 0; allow_empty_first_page := true |}.

Lemma ceil_div_bounds (a b : Z) : 0 < b -> b * (ceil_div a b - 1) < a <= b * ceil_div a b.
Proof.
  intros Hb. unfold ceil_div.
  pose proof (Z.div_mod (- a) b ltac:(lia)) as Hdm.
  pose proof (Z.mod_pos_bound (- a) b Hb) as Hr.
  nia.
Qed.

Lemma num_pages_mkp (l : list row) (n : Z) :
  num_pages (mkp l n) = ceil_div (Z.max 1 (Z.of_nat (List.length l))) n.
Proof.
  unfold num_pages, count; cbn.
  rewrite andb_false_r, Z.sub_0_r. reflexivity.
Qed.

(** [num_pages] is [max(1, ceil(N / n))]. *)
Lemma num_pages_formula (l : list row) (n : Z) :
  0 < n ->
  num_pages (mkp l n) = Z.max 1 ((Z.of_nat (List.length l) + n - 1) / n).
Proof.
  intros Hn. rewrite num_pages_mkp.
  set (N := Z.of_nat (List.length l)).
  set (c := ceil_div (Z.max 1 N) n).
  pose proof (ceil_div_bounds (Z.max 1 N) n Hn) as Hc. fold c in Hc.
  pose proof (Z.div_mod (N + n - 1) n ltac:(lia)) as Hdm.
  pose proof (Z.mod_pos_bound (N + n - 1) n Hn) as Hr.
  set (d := (N + n - 1) / n) in *.
  assert (0 <= N) by (unfold N; lia).
  assert (c <= Z.max 1 d) by nia.
  assert (Z.max 1 d <= c) by nia.
  lia.
Qed.

Lemma num_pages_pos (l : list row) (n : Z) : 0 < n -> 1 <= num_pages (mkp l n).
Proof.
  intros Hn. rewrite num_pages_mkp.
  pose proof (ceil_div_bounds (Z.max 1 (Z.of_nat (List.length l))) n Hn). nia.
Qed.

Lemma num_pages_cover (l : list row) (n : Z) :
  0 < n -> Z.of_nat (List.length l) <= n * num_pages (mkp l n).
Proof.
  intros Hn. rewrite num_pages_mkp.
  pose proof (ceil_div_bounds (Z.max 1 (Z.of_nat (List.length l))) n Hn). lia.
Qed.

(** The rows of page [k], for [1 <= k <= num_pages]. *)
Definition chunk (l : list row) (n : Z) (k : Z) : list row :=
  firstn (Z.to_nat n) (skipn (Z.to_nat ((k - 1) * n)) l).

Lemma page_in_range (l : list row) (n k : Z) :
  0 < n -> 1 <= k <= num_pages (mkp l n) ->
  page (mkp l n) k = inr (chunk l n k, k).
Proof.
  intros Hn Hk. unfold page, validate_number.
  rewrite ?Z.gtb_ltb, ?Z.geb_leb.
  destruct (Z.ltb_spec k 1); [lia|].
  destruct (Z.ltb_spec (num_pages (mkp l n)) k); [lia|].
  unfold slice, chunk, count, mkp; cbn [object_list per_page orphans].
  rewrite Z.add_0_r, Z.geb_leb. assert (0 <= (k - 1) * n) by nia.
  destruct (Z.leb_spec (Z.of_nat (List.length l)) ((k - 1) * n + n)).
  - rewrite !firstn_all2; [reflexivity | rewrite length_skipn; lia..].
  - do 3 f_equal. lia.
Qed.

Lemma get_page_in_range (l : list row) (n k : Z) :
  0 < n -> 1 <= k <= num_pages (mkp l n) ->
  get_page (mkp l n) k = inr (chunk l n k, k).
Proof.
  intros Hn Hk. unfold get_page.
  replace (validate_number (mkp l n) k) with (@inr page_error Z k)
    by (unfold validate_number; rewrite Z.gtb_ltb;
        destruct (Z.ltb_spec k 1); [lia|];
        destruct (Z.ltb_spec (num_pages (mkp l n)) k); [lia|reflexivity]).
  now apply page_in_range.
Qed.

Lemma get_page_out_of_range (l : list row) (n k : Z) :
  0 < n -> ~ (1 <= k <= num_pages (mkp l n)) ->
  get_page (mkp l n) k =
    inr (chunk l n (num_pages (mkp l n)), num_pages (mkp l n)).
Proof.
  intros Hn Hk. pose proof (num_pages_pos l n Hn).
  unfold get_page.
  replace (validate_number (mkp l n) k) with (@inl page_error Z EmptyPage)
    by (unfold validate_number; rewrite Z.gtb_ltb;
        destruct (Z.ltb_spec k 1); [reflexivity|];
        destruct (Z.ltb_spec (num_pages (mkp l n)) k); [reflexivity|lia]).
  apply page_in_range; lia.
Qed.

Lemma firstn_add (a b : nat) (l : list row) :
  firstn (a + b) l = firstn a l ++ firstn b (skipn a l).
Proof.
  revert l. induction a as [|a IH]; intros l; [reflexivity|].
  destruct l as [|x l]; cbn; [now rewrite firstn_nil|]. now rewrite IH.
Qed.

(** The pages [1..m] put together are the first [m * n] rows. *)
Lemma chunks_concat (l : list row) (n : Z) (m : nat) :
  0 < n ->
  List.concat (map (fun j => chunk l n (Z.of_nat j)) (seq 1 m)) = firstn (m * Z.to_nat n) l.
Proof.
  intros Hn. induction m as [|m IH]; [reflexivity|].
  rewrite seq_S, map_app, concat_app, IH. cbn [map List.concat]. rewrite app_nil_r.
  unfold chunk.
  replace (Z.to_nat ((Z.of_nat (1 + m) - 1) * n)) with (m * Z.to_nat n)%nat by lia.
  rewrite <- firstn_add. f_equal. lia.
Qed.

End Rows.
End PaginationFacts.

(* ===================================================================== *)
(** ** Properties of the repository *)
(* ===================================================================== *)

Module RepositoryFacts.
Import Pagination PaginationFacts Repository Models.

Section Facts.
Context (construct : list (string * pyval) -> exn + attrs).
Context (setattr_raises : string -> pyval -> option exn).
Context (clean_raises : table -> attrs -> option exn).
Context (full_clean : table -> attrs -> gmap string (list string)).
Context (default_order : list (Z * attrs) -> list (Z * attrs)).
Context (qs_filter : list (string * pyval) -> list (Z * attrs) -> exn + list (Z * attrs)).
Context (qs_order : list string -> list (Z * attrs) -> exn + list (Z * attrs)).

Lemma get_all_eq filters order_by k n t qs :
  queryset default_order qs_filter qs_order filters order_by t = inr qs ->
  get_all default_order qs_filter qs_order filters order_by k n t =
  match get_page (mkp qs n) k with
  | inl e => (inl (PaginatorError e), t)
  | inr (rows, _) =>
      (inr {| data := map values rows; page_no := k;
              total_pages := num_pages (mkp qs n); total_count := count (mkp qs n) |}, t)
  end.
Proof.
  intros Hq. unfold get_all, bind, get_table, ret, raise. cbn. rewrite Hq.
  change {| object_list := qs; per_page := n; orphans := 0; allow_empty_first_page := true |}
    with (mkp qs n).
  destruct (get_page _ k) as [e | [rows x]]; reflexivity.
Qed.

(** Every call of [get_all] with [page_size >= 1] on a queryset that was
    built returns the chunk of the requested page when it exists, of the
    last page otherwise. *)
Lemma get_all_result filters order_by k n t qs :
  0 < n ->
  queryset default_order qs_filter qs_order filters order_by t = inr qs ->
  let last := num_pages (mkp qs n) in
  get_all default_order qs_filter qs_order filters order_by k n t =
    (inr {| data := map values (chunk qs n (if decide (1 <= k <= last) then k else last));
            page_no := k; total_pages := last;
            total_count := Z.of_nat (List.length qs) |}, t).
Proof.
  intros Hn Hq last. rewrite (get_all_eq _ _ _ _ _ _ Hq).
  destruct (decide (1 <= k <= last)) as [Hk | Hk].
  - rewrite get_page_in_range by (unfold last in Hk; lia). reflexivity.
  - rewrite get_page_out_of_range by (unfold last in Hk; lia). reflexivity.
Qed.

(** C2: with [page_size >= 1], on the collection [qs] the filtered and
    ordered queryset denotes, [get_all] never raises; [total_count] is the
    size [N] of [qs] and [total_pages] is [max(1, ceil(N / page_size))];
    the pages [1..total_pages] hold [N] rows together; a page past the last
    has the rows of the last page, which are none when [N = 0]. *)
Theorem get_all_pagination (t : table) (filters : list (string * pyval))
    (order_by : list string) (page_size : Z) (qs : list (Z * attrs)) (Hps : 1 <= page_size)
    (Hqs : queryset default_order qs_filter qs_order filters order_by t = inr qs) :
  let N := Z.of_nat (List.length qs) in
  let run k := get_all default_order qs_filter qs_order filters order_by k page_size t in
  let data_of k := match (run k).1 with inr r => data r | inl _ => [] end in
  let last := Z.max 1 ((N + page_size - 1) / page_size) in
  (forall k, exists r, run k = (inr r, t) /\ total_count r = N /\
                       total_pages r = last /\ page_no r = k) /\
  list_sum (map (fun j => List.length (data_of (Z.of_nat j))) (seq 1 (Z.to_nat last)))
    = List.length qs /\
  (forall k, last < k -> data_of k = data_of last) /\
  (N = 0 -> forall k, data_of k = []).
Proof.
  intros N run data_of last.
  assert (Hn : 0 < page_size) by lia.
  assert (Hnp : num_pages (mkp qs page_size) = last) by (apply num_pages_formula; lia).
  pose proof (num_pages_pos qs page_size Hn) as Hpos.
  pose proof (num_pages_cover qs page_size Hn) as Hcov.
  assert (Hrun : forall k, run k =
    (inr {| data := map values (chunk qs page_size (if decide (1 <= k <= last) then k else last));
            page_no := k; total_pages := last; total_count := N |}, t)).
  { intros k. unfold run. rewrite (get_all_result _ _ _ _ _ _ Hn Hqs). now rewrite Hnp. }
  assert (Hdata : forall k, data_of k =
    map values (chunk qs page_size (if decide (1 <= k <= last) then k else last))).
  { intros k. unfold data_of. now rewrite Hrun. }
  split; [|split; [|split]].
  - intros k. eexists. split; [apply Hrun|]. cbn. auto.
  - rewrite (map_ext_in _ (fun j => List.length (chunk qs page_size (Z.of_nat j)))).
    + rewrite <- (map_map (fun j => chunk qs page_size (Z.of_nat j)) (@List.length _)).
      rewrite <- length_concat, chunks_concat by exact Hn.
      f_equal. apply firstn_all2.
      assert ((Z.to_nat last * Z.to_nat page_size)%nat = Z.to_nat (last * page_size))
        by (rewrite Z2Nat.inj_mul; lia).
      unfold N in Hcov. nia.
    + intros j Hj. apply in_seq in Hj. rewrite Hdata, length_map.
      destruct (decide _); [reflexivity | lia].
  - intros k Hk. rewrite !Hdata.
    destruct (decide (1 <= k <= last)); [lia|].
    destruct (decide (1 <= last <= last)); [reflexivity | lia].
  - intros HN k. rewrite Hdata.
    assert (qs = []) as Hq by (apply length_zero_iff_nil; unfold N in HN; lia).
    unfold chunk. rewrite Hq, skipn_nil, firstn_nil. reflexivity.
Qed.

(** [save] never raises and only writes one row. *)
Lemma save_ok (inst : attrs) (t : table) :
  exists pk inst', save inst t = (inr inst', <[pk := inst']> t).
Proof.
  unfold save, bind, get_table, put_table, ret. cbn.
  destruct (inst !! "id") as [[]|]; eauto.
Qed.

(** [instance.full_clean()] never writes the table. *)
Lemma run_full_clean_table (inst : attrs) (t : table) :
  run_full_clean clean_raises full_clean inst t =
    match clean_raises t inst with
    | Some e => (inl e, t)
    | None => if decide (full_clean t inst = ∅) then (inr tt, t)
              else (inl (ValidationError (full_clean t inst)), t)
    end.
Proof.
  unfold run_full_clean, bind, get_table, ret, raise. cbn.
  destruct (clean_raises t inst); [reflexivity|].
  destruct (decide (full_clean t inst = ∅)); reflexivity.
Qed.

(** [create] and [update] raise only before [save], so a failing call
    leaves the table as it was. *)
Lemma failure_keeps_table (data : list (string * pyval)) (id : Z) (t : table) (e : exn) :
  ((create construct clean_raises full_clean data t).1 = inl e ->
   (create construct clean_raises full_clean data t).2 = t) /\
  ((update setattr_raises clean_raises full_clean id data t).1 = inl e ->
   (update setattr_raises clean_raises full_clean id data t).2 = t).
Proof.
  split.
  - unfold create, bind. destruct (construct data) as [e'|inst]; [reflexivity|].
    rewrite run_full_clean_table.
    destruct (clean_raises t inst); [reflexivity|].
    destruct (decide _); [|reflexivity].
    destruct (save_ok inst t) as (pk & i' & ->). discriminate.
  - unfold update, get_by_id, bind, get_table, ret.
    destruct (t !! id) as [row|]; [|reflexivity].
    destruct (set_attrs setattr_raises data row) as [e'|inst]; [reflexivity|].
    rewrite run_full_clean_table.
    destruct (clean_raises t inst); [reflexivity|].
    destruct (decide _); [|reflexivity].
    destruct (save_ok inst t) as (pk & i' & ->). discriminate.
Qed.

End Facts.

(** C4 (the code raises other exceptions): a failing [create] or [update]
    never changes the table, and one whose instance fails [full_clean]
    without [clean()] raising anything else raises [ValidationError] with
    the error dictionary; but on [Task], an instance without a project (and
    no due date in the past) makes [create] raise
    [RelatedObjectDoesNotExist] from [Task.clean], and [update] with a
    non-instance for [project] raises [ValueError] from [setattr]: neither
    is a [ValidationError]. *)
Theorem validation_failure_paths :
  (forall construct setattr_raises clean_raises full_clean data id (t : table) e,
     ((create construct clean_raises full_clean data t).1 = inl e ->
      (create construct clean_raises full_clean data t).2 = t) /\
     ((update setattr_raises clean_raises full_clean id data t).1 = inl e ->
      (update setattr_raises clean_raises full_clean id data t).2 = t)) /\
  (forall construct clean_raises full_clean data (t : table) inst,
     construct data = inr inst -> clean_raises t inst = None -> full_clean t inst <> ∅ ->
     create construct clean_raises full_clean data t =
       (inl (ValidationError (full_clean t inst)), t)) /\
  (forall construct full_clean today project_status data (t : table) inst,
     construct data = inr inst -> date_attr inst "project_id" = None ->
     (forall d, date_attr inst "due_date" = Some d -> today <= d) ->
     create construct (task_clean_raises today project_status) full_clean data t =
       (inl (RelatedObjectDoesNotExist "Task.project"), t)) /\
  (forall clean_raises full_clean id (t : table) row v,
     t !! id = Some row -> v <> PNone -> (forall cls s, v <> PObj cls s) ->
     update task_setattr_raises clean_raises full_clean id [("project", v)] t =
       (inl ValueError, t)).
Proof.
  split; [|split; [|split]].
  - intros. apply failure_keeps_table.
  - intros construct clean_raises full_clean data t inst Hc Hcl Hbad.
    unfold create, bind. rewrite Hc, run_full_clean_table, Hcl.
    destruct (decide (full_clean t inst = ∅)); [contradiction | reflexivity].
  - intros construct full_clean today project_status data t inst Hc Hp Hd.
    assert (Hr : task_clean_raises today project_status t inst =
                 Some (RelatedObjectDoesNotExist "Task.project")).
    { unfold task_clean_raises, task_clean. rewrite Hp.
      destruct (date_attr inst "due_date") as [d|]; [|reflexivity].
      specialize (Hd d eq_refl). destruct (Z.ltb_spec d today); [lia | reflexivity]. }
    unfold create, bind. rewrite Hc, run_full_clean_table, Hr.
    reflexivity.
  - intros clean_raises full_clean id t row v Hrow Hnone Hobj.
    unfold update, get_by_id, bind, get_table, ret, raise. rewrite Hrow. cbn.
    unfold task_setattr_raises. cbn.
    destruct v; try reflexivity; [contradiction | exfalso; eapply Hobj; reflexivity].
Qed.

Section Sentinels.
Context (setattr_raises : string -> pyval -> option exn).
Context (clean_raises : table -> attrs -> option exn).
Context (full_clean : table -> attrs -> gmap string (list string)).

(** C5: for a primary key absent from the table, [get_by_id] and [update]
    return [None] and [delete] returns [False], all without raising and
    without touching the table; a second [delete] always returns [False]. *)
Theorem missing_record_sentinels (t : table) (id : Z) (Hnone : t !! id = None) :
  get_by_id id t = (inr None, t) /\
  (forall data, update setattr_raises clean_raises full_clean id data t = (inr None, t)) /\
  delete id t = (inr false, t) /\
  (forall t0 : table, delete id (delete id t0).2 = (inr false, (delete id t0).2)).
Proof.
  assert (Hdel : forall t1 : table, t1 !! id = None -> delete id t1 = (inr false, t1)).
  { intros t1 H1. unfold delete, get_by_id, bind, get_table, ret. now rewrite H1. }
  split; [|split; [|split]].
  - unfold get_by_id, bind, get_table, ret. now rewrite Hnone.
  - intros data. unfold update, get_by_id, bind, get_table, ret. now rewrite Hnone.
  - now apply Hdel.
  - intros t0. apply Hdel.
    unfold delete, get_by_id, bind, get_table, put_table, ret.
    destruct (t0 !! id) eqn:E; cbn; [apply lookup_delete_eq | exact E].
Qed.

End Sentinels.
End RepositoryFacts.

(* ===================================================================== *)
(** ** Instances of the theorems on concrete inputs *)
(* ===================================================================== *)

Module Witnesses.
Import Introspection Pagination Repository Models Samples IntrospectionFacts RepositoryFacts.

(** [list(page=5)] on three tasks with [page_size=50]: page 5 is past the
    last, the call returns one page and three rows in all. *)
Lemma get_all_pagination_witness :
  1 <= 50 /\
  queryset (fun l => l) (fun _ l => inr l) (fun _ l => inr l) [] [] three_tasks
    = inr (map_to_list three_tasks) /\
  exists r, get_all (fun l => l) (fun _ l => inr l) (fun _ l => inr l) [] [] 5 50 three_tasks
              = (inr r, three_tasks) /\
            total_count r = 3 /\ total_pages r = 1 /\ page_no r = 5.
Proof.
  split; [lia|]. split; [reflexivity|].
  destruct (get_all_pagination (fun l => l) (fun _ l => inr l) (fun _ l => inr l)
              three_tasks [] [] 50 (map_to_list three_tasks) ltac:(lia) eq_refl) as [H _].
  exact (H 5).
Defined.

Lemma missing_record_sentinels_witness :
  three_tasks !! 7 = None /\
  delete 7 three_tasks = (inr false, three_tasks).
Proof.
  split; [reflexivity|].
  exact (proj1 (proj2 (proj2
    (missing_record_sentinels (fun _ _ => None) (fun _ _ => None) (fun _ _ => ∅)
       three_tasks 7 eq_refl)))).
Defined.

(** [create({'title': 'x'})] on [Task] with an empty table: [full_clean]
    has found the missing project, but [Task.clean] raises
    [RelatedObjectDoesNotExist] first. *)
Lemma validation_failure_paths_witness :
  let construct := fun data : list (string * pyval) => inr (list_to_map data) : exn + attrs in
  let full_clean := fun (_ : table) (_ : attrs) =>
    {[ "project" := ["This field cannot be null."] ]} : gmap string (list string) in
  date_attr {[ "title" := PStr "x" ]} "project_id" = None /\
  create construct (task_clean_raises 739904 ∅) full_clean [("title", PStr "x")] ∅ =
    (inl (RelatedObjectDoesNotExist "Task.project"), ∅).
Proof.
  intros construct full_clean. split; [reflexivity|].
  refine (proj1 (proj2 (proj2 validation_failure_paths)) construct full_clean 739904 ∅
            [("title", PStr "x")] ∅ {[ "title" := PStr "x" ]} eq_refl eq_refl _).
  intros d Hd. discriminate Hd.
Defined.

Lemma all_models_schema_excludes_builtin_witness :
  dict_get "Task" (get_all_models_schema None [task_model; auth_user_model])
    = Some (ODict (get_model_schema task_model)) /\
  exists m, In m [task_model; auth_user_model] /\ m_abstract m = false /\
    ~ In (m_app_label m) builtin_apps /\ m_name m = "Task" /\
    ODict (get_model_schema task_model) = ODict (get_model_schema m).
Proof.
  split; [reflexivity|].
  exact (all_models_schema_excludes_builtin None [task_model; auth_user_model] "Task"
           (ODict (get_model_schema task_model)) eq_refl).
Defined.

Lemma relation_field_schema_witness :
  is_relation_field (f_class task_tags_field) = true /\
  dict_get "many" (get_field_schema task_tags_field) = Some (OPy (PBool true)).
Proof.
  split; [reflexivity|].
  exact (proj1 (proj2 (relation_field_schema task_tags_field eq_refl))).
Defined.

End Witnesses.

(* ===================================================================== *)
(** ** Further properties of the introspector and the schema views *)
(* ===================================================================== *)

Module IntrospectionMore.
Import Introspection Views IntrospectionFacts.

(** A relationship field's [type] is [foreignkey], [onetoone] or
    [manytomany], and its [many] flag is true exactly when the type is
    [manytomany]. *)
Theorem relation_type_agrees_with_many (f : field) (Hrel : is_relation_field (f_class f) = true) :
  exists ty, dict_get "type" (get_field_schema f) = Some (OPy (PStr ty)) /\
    In ty ["foreignkey"; "onetoone"; "manytomany"] /\
    (dict_get "many" (get_field_schema f) = Some (OPy (PBool true)) <-> ty = "manytomany").
Proof.
  unfold get_field_schema. rewrite Hrel. cbn.
  exists (get_field_type f). split; [reflexivity|].
  unfold get_field_type. unfold is_relation_field in Hrel.
  destruct (f_class f); try discriminate; cbn;
    (split; [auto|]); split; intros H; congruence.
Qed.

(** A scalar field with a non-empty [choices] list is reported with one
    [{value, label}] dictionary per choice, in order; with no choices (or
    for a relationship field) there is no [choices] key. *)
Theorem choices_serialized (f : field) :
  (is_relation_field (f_class f) = false ->
   forall cs, f_choices f = Some cs -> cs <> [] ->
     dict_get "choices" (get_field_schema f) =
       Some (OList (map (fun ch => ODict [("value", OPy ch.1); ("label", OPy ch.2)]) cs))) /\
  ((f_choices f = None \/ f_choices f = Some []) ->
     has_key "choices" (get_field_schema f) = false).
Proof.
  split.
  - intros Hrel cs Hcs Hne. unfold get_field_schema. rewrite Hrel, Hcs.
    destruct cs as [|c cs]; [congruence|].
    unfold serialize_default.
    destruct (f_max_length f) as [ml|]; try destruct (truthy_int ml);
      destruct (has_default f); destruct (callable (get_default f));
      destruct (is_primitive (get_default f));
      destruct (f_max_digits f); destruct (f_decimal_places f); destruct (f_unique f);
      reflexivity.
  - intros Hc. unfold has_key, get_field_schema, serialize_default.
    destruct (is_relation_field (f_class f)); [reflexivity|].
    destruct Hc as [Hc|Hc]; rewrite Hc;
    destruct (f_max_length f) as [ml|]; try destruct (truthy_int ml);
      destruct (has_default f); destruct (callable (get_default f));
      destruct (is_primitive (get_default f));
      destruct (f_max_digits f); destruct (f_decimal_places f); destruct (f_unique f);
      reflexivity.
Qed.

(** A scalar field whose default is not callable reports a primitive
    default (str, int, float, bool, None) as it is and any other default
    as its string form. *)
Theorem non_callable_default_serialized (f : field) (v : pyval)
    (Hrel : is_relation_field (f_class f) = false) (Hd : f_default f = Some v)
    (Hnc : callable v = false) :
  dict_get "default" (get_field_schema f) =
    Some (OPy (if is_primitive v then v else py_str v)).
Proof.
  assert (Hg : get_default f = v) by (unfold get_default; rewrite Hd; destruct v; easy).
  assert (Hs : serialize_default f = OPy (if is_primitive v then v else py_str v)).
  { unfold serialize_default, has_default. rewrite Hd, Hg, Hnc. now destruct (is_primitive v). }
  unfold get_field_schema. rewrite Hrel, Hs.
  destruct (f_max_length f) as [ml|]; try destruct (truthy_int ml);
    destruct (f_choices f) as [[|ch chs]|];
    destruct (f_max_digits f); destruct (f_decimal_places f); destruct (f_unique f);
    reflexivity.
Qed.


(** Whether [get_all_models_schema] keeps a model. *)
Definition kept (app_label : option string) (m : model_class) : bool :=
  (if truthy_str app_label then String.eqb (m_app_label m) (default "" app_label) else true) &&
  negb (m_abstract m) && negb (in_list (m_app_label m) builtin_apps).

Lemma all_models_fold_lookup (ms : list model_class) (acc : dict) (n : string) :
  dict_get n (fold_left
    (fun schemas m =>
       if m_abstract m then schemas
       else if in_list (m_app_label m) builtin_apps then schemas
       else dict_set (m_name m) (ODict (get_model_schema m)) schemas) ms acc) =
  match rev (List.filter (fun m => negb (m_abstract m) &&
                                   negb (in_list (m_app_label m) builtin_apps) &&
                                   String.eqb (m_name m) n) ms) with
  | m :: _ => Some (ODict (get_model_schema m))
  | [] => dict_get n acc
  end.
Proof.
  revert acc. induction ms as [|m ms IH]; intros acc; [reflexivity|].
  cbn [fold_left List.filter]. rewrite IH.
  destruct (m_abstract m) eqn:Ha; cbn [negb andb]; [reflexivity|].
  destruct (in_list (m_app_label m) builtin_apps) eqn:Hb; cbn [negb andb]; [reflexivity|].
  rewrite dict_get_set, (String.eqb_sym (m_name m) n).
  destruct (String.eqb n (m_name m)) eqn:E; cbn [rev].
  - destruct (rev _); reflexivity.
  - reflexivity.
Qed.

(** [get_all_models_schema] maps a name to the schema of the last kept
    registered model of that name (a later model replaces an earlier one
    of the same name), and has no entry for a name no kept model has. *)
Theorem all_models_schema_lookup (app_label : option string) (registry : list model_class)
    (n : string) :
  dict_get n (get_all_models_schema app_label registry) =
  match rev (List.filter (fun m => kept app_label m && String.eqb (m_name m) n) registry) with
  | m :: _ => Some (ODict (get_model_schema m))
  | [] => None
  end.
Proof.
  unfold get_all_models_schema. rewrite all_models_fold_lookup.
  assert (Hff : forall (p q : model_class -> bool) l,
             List.filter p (List.filter q l) = List.filter (fun x => q x && p x) l).
  { intros p q l. induction l as [|x l IH]; [reflexivity|]. cbn.
    destruct (q x); cbn; [destruct (p x); cbn; now rewrite IH | exact IH]. }
  unfold kept. destruct (truthy_str app_label).
  - rewrite Hff. erewrite filter_ext; [reflexivity|]. intros m. cbn.
    now destruct (String.eqb (m_app_label m) (default "" app_label)), (m_abstract m),
      (in_list (m_app_label m) builtin_apps), (String.eqb (m_name m) n).
  - erewrite filter_ext; [reflexivity|]. intros m. reflexivity.
Qed.

End IntrospectionMore.

Module ViewsFacts.
Import Introspection Views.

Lemma in_list_In (x : string) (l : list string) : in_list x l = true <-> In x l.
Proof.
  unfold in_list. rewrite existsb_exists. split.
  - intros [y [Hy Heq]]. apply String.eqb_eq in Heq. now subst.
  - intros H. exists x. split; [exact H | apply String.eqb_refl].
Qed.

Lemma find_name_spec (registry : list model_class) (n : string) :
  match find (fun m => String.eqb (m_name m) n) registry with
  | Some m => exists pre post, registry = pre ++ m :: post /\
                Forall (fun m' => m_name m' <> n) pre /\ m_name m = n
  | None => forall m, In m registry -> m_name m <> n
  end.
Proof.
  induction registry as [|m0 reg IH]; cbn; [tauto|].
  destruct (String.eqb (m_name m0) n) eqn:E.
  - apply String.eqb_eq in E. exists [], reg. repeat split; auto.
  - apply String.eqb_neq in E.
    destruct (find _ reg) as [m|].
    + destruct IH as (pre & post & -> & Hpre & Hm).
      exists (m0 :: pre), post. repeat split; auto.
    + intros m [<-|Hin]; auto.
Qed.

(** Without an app label, [get_model_by_name] returns the first model of
    [apps.get_models()] whose name is exactly [model_name], and [None] when
    no registered model has that name. *)
Theorem model_by_name_first_match (apps_get_model : string -> string -> option model_class)
    (registry : list model_class) (n : string) :
  (get_model_by_name apps_get_model registry n None = None <->
     forall m, In m registry -> m_name m <> n) /\
  (forall m, get_model_by_name apps_get_model registry n None = Some m ->
     exists pre post, registry = pre ++ m :: post /\
       Forall (fun m' => m_name m' <> n) pre /\ m_name m = n).
Proof.
  unfold get_model_by_name. cbn [truthy_str].
  pose proof (find_name_spec registry n) as Hs.
  destruct (find _ registry) as [m|]; split.
  - split; [discriminate|]. intros Hno.
    destruct Hs as (pre & post & Hr & _ & Hm). exfalso. apply (Hno m); [|exact Hm].
    rewrite Hr. apply in_or_app. right. left. reflexivity.
  - intros m' [= <-]. exact Hs.
  - tauto.
  - discriminate.
Qed.

(** [get_schema_view] answers 405 to any method but GET; to a GET it
    answers 403 exactly when the name is not in [ALLOWED_MODELS], 404
    exactly when it is allowed but no registered model has that name, and
    otherwise 200 with the schema of the first registered model of that
    name. *)
Theorem schema_view_responses (apps_get_model : string -> string -> option model_class)
    (registry : list model_class) (method n : string) :
  let r := get_schema_view apps_get_model registry method n in
  (method <> "GET" -> status r = 405) /\
  (method = "GET" ->
     (status r = 403 <-> ~ In n ALLOWED_MODELS) /\
     (status r = 404 <-> In n ALLOWED_MODELS /\ forall m, In m registry -> m_name m <> n) /\
     (status r = 200 <-> In n ALLOWED_MODELS /\ exists m, In m registry /\ m_name m = n) /\
     (status r = 200 -> exists m, In m registry /\ m_name m = n /\
                          body r = ODict (get_model_schema m))).
Proof.
  intros r. subst r. unfold get_schema_view, require_get. split.
  - intros Hm. apply String.eqb_neq in Hm. now rewrite Hm.
  - intros ->. cbn [String.eqb Ascii.eqb Bool.eqb].
    unfold validate_model_access, get_model_by_name. cbn [truthy_str].
    pose proof (find_name_spec registry n) as Hs.
    pose proof (in_list_In n ALLOWED_MODELS) as Hin.
    destruct (in_list n ALLOWED_MODELS) eqn:Ha; cbn [negb].
    + assert (HA : In n ALLOWED_MODELS) by (apply Hin; reflexivity).
      destruct (find _ registry) as [m|]; cbn [status body].
      * destruct Hs as (pre & post & Hr & _ & Hm).
        assert (Hmi : In m registry) by (rewrite Hr; apply in_or_app; right; left; reflexivity).
        repeat split; try discriminate; try tauto.
        -- intros [_ Hno]. exfalso. exact (Hno m Hmi Hm).
        -- exists m. auto.
        -- intros _. exists m. auto.
      * repeat split; try discriminate; try tauto.
        all: intros [_ (m & Hm & Hn)]; exfalso; exact (Hs m Hm Hn).
    + assert (HA : ~ In n ALLOWED_MODELS) by (intros H; apply Hin in H; discriminate).
      cbn [status body]. repeat split; try discriminate; try tauto.
Qed.

Lemma dict_get_filter (p : string -> bool) (n : string) (d : dict) :
  dict_get n (List.filter (fun kv => p kv.1) d) = if p n then dict_get n d else None.
Proof.
  induction d as [|[k v] d IH]; cbn; [now destruct (p n)|].
  destruct (p k) eqn:Hk; cbn; destruct (String.eqb n k) eqn:E; auto.
  - apply String.eqb_eq in E. subst. now rewrite Hk.
  - apply String.eqb_eq in E. subst. now rewrite IH, Hk.
Qed.

(** [get_all_schemas_view] answers a GET with 200 and the entries of
    [get_all_models_schema()] whose model name is in [ALLOWED_MODELS]: an
    allowed name maps to what [get_all_models_schema()] has for it, any
    other name is absent. *)
Theorem all_schemas_view_filters (registry : list model_class) :
  status (get_all_schemas_view registry "GET") = 200 /\
  exists d, body (get_all_schemas_view registry "GET") = ODict d /\
    forall n, dict_get n d =
      if in_list n ALLOWED_MODELS then dict_get n (get_all_models_schema None registry) else None.
Proof.
  split; [reflexivity|]. eexists. split; [reflexivity|].
  intros n. apply (dict_get_filter (fun k => in_list k ALLOWED_MODELS)).
Qed.

Lemma strip_prefix_app (pre s r : string) : strip_prefix pre s = Some r -> s = (pre ++ r)%string.
Proof.
  revert s. induction pre as [|c pre IH]; intros s H; cbn in H.
  - now injection H as ->.
  - destruct s as [|d s]; [discriminate|].
    destruct (Ascii.eqb c d) eqn:E; [|discriminate].
    apply Ascii.eqb_eq in E. subst. rewrite (IH s H). reflexivity.
Qed.

(** With [urlpatterns] in this order, ['api/schema/<str:model_name>/']
    comes before ['api/schema/all/'] and matches ['api/schema/all/'] with
    [model_name='all']: no path resolves to [get_all_schemas_view], and a
    GET of ['api/schema/all/'] is answered by [get_schema_view], which
    refuses ['all'] with 403. *)
Theorem all_schemas_route_unreachable (apps_get_model : string -> string -> option model_class)
    (registry : list model_class) :
  (forall path kw, resolve path <> Some (GetAllSchemas, kw)) /\
  resolve "api/schema/all/" = Some (GetSchema, [("model_name", "all")]) /\
  status (get_schema_view apps_get_model registry "GET" "all") = 403.
Proof.
  split; [|split; reflexivity].
  intros path kw. unfold resolve, urlpatterns. cbn [resolve_in].
  destruct (match_pattern _ path); [discriminate|].
  destruct (match_pattern _ path); [discriminate|].
  destruct (match_pattern {| route := [Lit "api/schema/"; StrConv "model_name"; Lit "/"];
                            is_include := false; target := GetSchema |} path) eqn:E3;
    [discriminate|].
  destruct (match_pattern {| route := [Lit "api/schema/all/"]; is_include := false;
                            target := GetAllSchemas |} path) as [kw'|] eqn:E; [|discriminate].
  unfold match_pattern in E. cbn [route is_include match_tokens] in E.
  destruct (strip_prefix "api/schema/all/" path) as [rest|] eqn:Hs; [|discriminate].
  cbn in E. destruct rest; [|discriminate].
  apply strip_prefix_app in Hs. cbn in Hs. subst path.
  revert E3. vm_compute. discriminate.
Qed.

End ViewsFacts.

(* ===================================================================== *)
(** ** Properties of the model hooks *)
(* ===================================================================== *)

Module ModelsFacts.
Import Repository Models.




(** [Project.clean] raises exactly when both dates are set and the
    deadline is strictly before the start date (equal dates pass), and
    the error is on ['deadline'] only. *)
Theorem project_clean_spec (start_date deadline : option Z) :
  (project_clean start_date deadline = None <->
     match start_date, deadline with
     | Some s, Some d => s <= d
     | _, _ => True
     end) /\
  (forall e, project_clean start_date deadline = Some e ->
     e = {[ "deadline" := ["Deadline must be after start date"] ]}).
Proof.
  unfold project_clean.
  destruct start_date as [s|], deadline as [d|]; try (split; [tauto | discriminate]).
  destruct (Z.ltb_spec d s); split.
  - split; [discriminate | lia].
  - now intros e [= <-].
  - tauto.
  - discriminate.
Qed.

(** [Task.clean] checks the due date first: a due date in the past is
    reported alone, whatever the project.  Otherwise a task without a
    project makes [self.project] raise [RelatedObjectDoesNotExist] (not a
    [ValidationError]), and the task passes exactly when its project
    exists and is not archived. *)
Theorem task_clean_spec (today : Z) (due_date project_id : option Z)
    (project_status : gmap Z string) :
  (forall d, due_date = Some d -> d < today ->
     task_clean today due_date project_id project_status =
       Some (ValidationError {[ "due_date" := ["Due date cannot be in the past"] ]})) /\
  ((forall d, due_date = Some d -> today <= d) -> project_id = None ->
     task_clean today due_date project_id project_status =
       Some (RelatedObjectDoesNotExist "Task.project")) /\
  (task_clean today due_date project_id project_status = None <->
     (forall d, due_date = Some d -> today <= d) /\
     exists pid st, project_id = Some pid /\ project_status !! pid = Some st /\
                    st <> "archived").
Proof.
  unfold task_clean.
  assert (Hdue : (exists d, due_date = Some d /\ d < today) \/
                 (forall d, due_date = Some d -> today <= d)).
  { destruct due_date as [d|]; [|right; discriminate].
    destruct (Z.ltb_spec d today); [left; eauto | right; intros ? [= <-]; lia]. }
  destruct Hdue as [(d & -> & Hlt) | Hok].
  - assert (E : (d <? today) = true) by (apply Z.ltb_lt; exact Hlt). rewrite E.
    split; [|split].
    + intros ? _ _. reflexivity.
    + intros H. specialize (H d eq_refl). lia.
    + split; [discriminate|]. intros [H _]. specialize (H d eq_refl). lia.
  - assert (E : match due_date with
                | Some d => if d <? today then
                              Some (ValidationError
                                      {[ "due_date" := ["Due date cannot be in the past"] ]})
                            else None
                | None => None
                end = None).
    { destruct due_date as [d|]; [|reflexivity].
      specialize (Hok d eq_refl). destruct (Z.ltb_spec d today); [lia | reflexivity]. }
    cbv zeta. rewrite E. split; [|split].
    + intros d Hd Hlt. specialize (Hok d Hd). lia.
    + now intros _ ->.
    + destruct project_id as [pid|].
      * destruct (project_status !! pid) as [st|] eqn:Hs.
        -- destruct (String.eqb_spec st "archived") as [Ha|Ha].
           ++ split; [discriminate|]. intros [_ (pid' & st' & [= <-] & Hs' & Hne)].
              rewrite Hs in Hs'. injection Hs' as <-. contradiction.
           ++ split; [intros _; split; [exact Hok | eauto] | reflexivity].
        -- split; [discriminate|]. intros [_ (pid' & st' & [= <-] & Hs' & _)]. congruence.
      * split; [discriminate|]. intros [_ (pid' & st' & Hp & _)]. discriminate.
Qed.

End ModelsFacts.

(* ===================================================================== *)
(** ** Further properties of the repository *)
(* ===================================================================== *)

Module RepositoryMore.
Import Pagination PaginationFacts Repository RepositoryFacts.




Section More.
Context (construct : list (string * pyval) -> exn + attrs).
Context (setattr_raises : string -> pyval -> option exn).
Context (clean_raises : table -> attrs -> option exn).
Context (full_clean : table -> attrs -> gmap string (list string)).
Context (default_order : list (Z * attrs) -> list (Z * attrs)).
Context (qs_filter : list (string * pyval) -> list (Z * attrs) -> exn + list (Z * attrs)).
Context (qs_order : list string -> list (Z * attrs) -> exn + list (Z * attrs)).








(** [get_all] with a filter or an ordering the queryset refuses (a
    [FieldError] for an unknown field name, say) raises that error, for
    every page and page size, and leaves the table as it was. *)
Theorem get_all_queryset_error (t : table) (filters : list (string * pyval))
    (order_by : list string) (e : exn)
    (Herr : queryset default_order qs_filter qs_order filters order_by t = inl e) :
  forall k n, get_all default_order qs_filter qs_order filters order_by k n t = (inl e, t).
Proof.
  intros k n. unfold get_all, bind, get_table, raise. cbn. now rewrite Herr.
Qed.

End More.
End RepositoryMore.

Module PagesMore.
Import Pagination PaginationFacts Repository RepositoryFacts.

Section Pages.
Context (default_order : list (Z * attrs) -> list (Z * attrs)).
Context (qs_filter : list (string * pyval) -> list (Z * attrs) -> exn + list (Z * attrs)).
Context (qs_order : list string -> list (Z * attrs) -> exn + list (Z * attrs)).

(** With [page_size >= 1] and a queryset that was built, the pages
    [1..total_pages] of [get_all], read in order and put together, are
    exactly the rows of the queryset in queryset order (as [.values()] dictionaries); every page before the
    last holds [page_size] rows; and a page number below 1 gets the rows
    of the last page (Django's [get_page] on [EmptyPage]). *)
Theorem get_all_pages_partition (t : table) (filters : list (string * pyval))
    (order_by : list string) (page_size : Z) (qs : list (Z * attrs)) (Hps : 1 <= page_size)
    (Hqs : queryset default_order qs_filter qs_order filters order_by t = inr qs) :
  let run k := get_all default_order qs_filter qs_order filters order_by k page_size t in
  let data_of k := match (run k).1 with inr r => data r | inl _ => [] end in
  let last := num_pages (mkp qs page_size) in
  List.concat (map (fun j => data_of (Z.of_nat j)) (seq 1 (Z.to_nat last))) = map values qs /\
  (forall k, 1 <= k < last -> Z.of_nat (List.length (data_of k)) = page_size) /\
  (forall k, k < 1 -> data_of k = data_of last).
Proof.
  intros run data_of last.
  assert (Hn : 0 < page_size) by lia.
  pose proof (num_pages_pos qs page_size Hn) as Hpos. fold last in Hpos.
  pose proof (num_pages_cover qs page_size Hn) as Hcov. fold last in Hcov.
  assert (Hdata : forall k, data_of k =
    map values (chunk qs page_size (if decide (1 <= k <= last) then k else last))).
  { intros k. unfold data_of, run. rewrite (get_all_result _ _ _ _ _ _ _ _ _ Hn Hqs). reflexivity. }
  split; [|split].
  - rewrite (map_ext_in _ (fun j => map values (chunk qs page_size (Z.of_nat j)))).
    + rewrite <- (map_map (fun j => chunk qs page_size (Z.of_nat j)) (map values)).
      rewrite <- concat_map, chunks_concat by exact Hn.
      f_equal. apply firstn_all2.
      assert ((Z.to_nat last * Z.to_nat page_size)%nat = Z.to_nat (last * page_size))
        by (rewrite Z2Nat.inj_mul; lia).
      nia.
    + intros j Hj. apply in_seq in Hj. rewrite Hdata.
      destruct (decide _); [reflexivity | lia].
  - intros k Hk. rewrite Hdata. destruct (decide _) as [_|]; [|lia].
    rewrite length_map. unfold chunk. rewrite length_firstn, length_skipn.
    pose proof (num_pages_mkp qs page_size) as Hm. fold last in Hm.
    pose proof (ceil_div_bounds (Z.max 1 (Z.of_nat (List.length qs))) page_size Hn) as Hb.
    rewrite <- Hm in Hb.
    assert (k * page_size <= (last - 1) * page_size) by nia.
    assert (0 <= (k - 1) * page_size) by nia.
    assert (1 <= Z.of_nat (List.length qs)) by lia.
    lia.
  - intros k Hk. rewrite !Hdata.
    destruct (decide (1 <= k <= last)); [lia|].
    destruct (decide (1 <= last <= last)); [reflexivity | lia].
Qed.

End Pages.
End PagesMore.

(* ===================================================================== *)
(** ** Instances of the further theorems on concrete inputs *)
(* ===================================================================== *)

Module MoreWitnesses.
Import Introspection Pagination PaginationFacts Repository Models Samples
  IntrospectionMore ModelsFacts RepositoryMore PagesMore.


(** [Task.tags] is reported with type [manytomany]. *)
Lemma relation_type_agrees_with_many_witness :
  is_relation_field (f_class task_tags_field) = true /\
  exists ty, dict_get "type" (get_field_schema task_tags_field) = Some (OPy (PStr ty)) /\
    In ty ["foreignkey"; "onetoone"; "manytomany"] /\
    (dict_get "many" (get_field_schema task_tags_field) = Some (OPy (PBool true)) <->
     ty = "manytomany").
Proof.
  split; [reflexivity|].
  exact (relation_type_agrees_with_many task_tags_field eq_refl).
Defined.

(** [Task.status] reports its default ['todo'] as it is. *)
Lemma non_callable_default_serialized_witness :
  f_default task_status_field = Some (PStr "todo") /\
  dict_get "default" (get_field_schema task_status_field) = Some (OPy (PStr "todo")).
Proof.
  split; [reflexivity|].
  exact (non_callable_default_serialized task_status_field (PStr "todo")
           eq_refl eq_refl eq_refl).
Defined.






(** Three tasks with [page_size=2]: page 1 is full. *)
Lemma get_all_pages_partition_witness :
  1 <= 2 /\
  Z.of_nat (List.length
    (match (get_all (fun l => l) (fun _ l => inr l) (fun _ l => inr l) [] [] 1 2 three_tasks).1 with
     | inr r => data r
     | inl _ => []
     end)) = 2.
Proof.
  split; [lia|].
  exact (proj1 (proj2 (get_all_pages_partition (fun l => l) (fun _ l => inr l) (fun _ l => inr l)
           three_tasks [] [] 2 (map_to_list three_tasks) ltac:(lia) eq_refl))
           1 ltac:(split; [lia | vm_compute; reflexivity])).
Defined.

(** [get_all(filters={'nosuch': 1})] on a model whose only fields are
    [title] and [status] raises [FieldError]. *)
Lemma get_all_queryset_error_witness :
  let qs_filter := fun (filters : list (string * pyval)) (l : list (Z * attrs)) =>
    if forallb (fun kv => String.eqb kv.1 "title" || String.eqb kv.1 "status") filters
    then inr l else inl FieldError in
  queryset (fun l => l) qs_filter (fun _ l => inr l) [("nosuch", PInt 1)] [] three_tasks
    = inl FieldError /\
  get_all (fun l => l) qs_filter (fun _ l => inr l) [("nosuch", PInt 1)] [] 1 50 three_tasks
    = (inl FieldError, three_tasks).
Proof.
  intros qs_filter. split; [reflexivity|].
  exact (get_all_queryset_error (fun l => l) qs_filter (fun _ l => inr l) three_tasks
           [("nosuch", PInt 1)] [] FieldError eq_refl 1 50).
Defined.

End MoreWitnesses.
